(** * scripts/clean_grafana_folders.py: bulk deletion of Grafana folders

    A shallow embedding of the script.  The interpreter's world (standard
    input, the remote Grafana server reached through [requests]) is an
    abstract state threaded through every call; everything the script does
    to the outside (lines printed, prompts, HTTP requests) is recorded, in
    order, in a trace of events.

    What the types leave out: [input] always returns a line, the calls
    into [requests] raise nothing but a [RequestException], the decoded
    listing is a list of dicts and the values of their fields are
    strings. *)

From stdpp Require Import base option list strings pretty gmap.

(** ** Python string operations used by the script *)

(** [sub in s] on Python strings: [sub] occurs somewhere inside [s]. *)
Fixpoint str_in (sub s : string) : bool :=
  String.prefix sub s ||
  match s with
  | EmptyString => false
  | String _ s' => str_in sub s'
  end.

(** [s.endswith(suffix)]. *)
Fixpoint endswith (s suffix : string) : bool :=
  String.eqb s suffix ||
  match s with
  | EmptyString => false
  | String _ s' => endswith s' suffix
  end.

(** The slice [s[:-1]]: everything but the last character (the empty
    string stays empty). *)
Fixpoint drop_last (s : string) : string :=
  match s with
  | EmptyString => EmptyString
  | String c EmptyString => EmptyString
  | String c s' => String c (drop_last s')
  end.

(** ** Data *)

(** A folder as decoded from the JSON listing: a dict from field names to
    (string) values.  Fields may be missing. *)
Abbreviation Folder := (gmap string string).

(** The [headers] dict handed to [requests], in insertion order. *)
Abbreviation Headers := (list (string * string)).

(** [requests.exceptions.RequestException]; the script only formats it. *)
Record RequestException := { exn_str : string }.

(** [requests.Response], as far as the script looks at it: the two
    attributes it reads and the outcome of the two methods it calls
    ([raise_for_status()]: [Some e] when it raises; [json()]: the decoded
    listing, or the exception raised while decoding). *)
Record Response := {
  status_code : Z;
  text : string;
  raise_for_status : option RequestException;
  json : RequestException + list Folder
}.

(** Exceptions the script does not catch. *)
Inductive PyExn :=
| KeyError (key : string).

(** What the script does to the outside world. *)
Inductive Event :=
| Print (line : string)
| Input (prompt : string)
| HttpGet (url : string) (headers : Headers)
| HttpDelete (url : string) (headers : Headers).

(** ** The f-strings of the script *)

Definition banner1 : string :=
  "WARNING: This script will delete ALL folders in Grafana except 'General'.".
Definition banner2 : string :=
  "Ensure you have a backup or can recreate them via Terraform.".
Definition url_prompt : string :=
  "Enter Grafana URL (e.g. http://localhost:3000)".
Definition auth_prompt : string :=
  "Enter Grafana Auth (Basic username:password or Bearer token)".

Definition list_url (grafana_url : string) : string :=
  grafana_url +:+ "/api/folders".
Definition delete_url (grafana_url uid : string) : string :=
  grafana_url +:+ "/api/folders/" +:+ uid.

Definition msg_list_error (e : RequestException) : string :=
  "Error listing folders: " +:+ exn_str e.
Definition msg_found (n : nat) : string :=
  "Found " +:+ pretty n +:+ " folders.".
Definition msg_deleting (title uid : string) : string :=
  "Deleting folder: " +:+ title +:+ " (uid: " +:+ uid +:+ ") ...".
Definition msg_success (title : string) : string :=
  "Successfully deleted " +:+ title.
Definition msg_failed (title : string) (code : Z) (body : string) : string :=
  "Failed to delete " +:+ title +:+ ": " +:+ pretty code +:+ " - " +:+ body.
Definition msg_error (title : string) (e : RequestException) : string :=
  "Error deleting folder " +:+ title +:+ ": " +:+ exn_str e.

(** ** Pure pieces of [clean_folders] *)

(** The [headers] literal: the credential is sent as it is when it
    contains "Basic" or "Bearer", and behind "Bearer " otherwise. *)
Definition authorization (grafana_auth : string) : string :=
  if str_in "Basic" grafana_auth || str_in "Bearer" grafana_auth
  then grafana_auth
  else "Bearer " +:+ grafana_auth.

Definition make_headers (grafana_auth : string) : Headers :=
  [("Content-Type", "application/json");
   ("Authorization", authorization grafana_auth)].

(** [# Remove trailing slash] *)
Definition remove_trailing_slash (grafana_url : string) : string :=
  if endswith grafana_url "/" then drop_last grafana_url else grafana_url.

(** What the [try] block around the listing makes of the answer to the
    [GET]: the exception of [requests.get], else the one of
    [raise_for_status()], else what [json()] gives. *)
Definition list_result (r : RequestException + Response)
  : RequestException + list Folder :=
  match r with
  | inl e => inl e
  | inr response =>
      match raise_for_status response with
      | Some e => inl e
      | None => json response
      end
  end.

(** ** The script, over an abstract world *)

Section Script.

Context {World : Type}.

(** [os.environ], read only. *)
Variable os_environ : gmap string string.
(** [input(prompt)]: the line typed by the user. *)
Variable input : World → string → World * string.
(** [requests.get] and [requests.delete]: a response, or a
    [RequestException] raised by the transport. *)
Variable requests_get :
  World → string → Headers → World * (RequestException + Response).
Variable requests_delete :
  World → string → Headers → World * (RequestException + Response).

(** A computation: from a world to the next world, the events emitted
    and either a result or an uncaught exception. *)
Definition M (A : Type) : Type :=
  World → World * list Event * (PyExn + A).

#[local] Instance M_ret : MRet M := λ A a w, (w, [], inr a).
#[local] Instance M_bind : MBind M := λ A B k m w,
  match m w with
  | (w1, t1, inl e) => (w1, t1, inl e)
  | (w1, t1, inr a) =>
      match k a w1 with
      | (w2, t2, r) => (w2, t1 ++ t2, r)
      end
  end.

Definition raise {A} (e : PyExn) : M A := λ w, (w, [], inl e).
Definition emit (ev : Event) : M unit := λ w, (w, [ev], inr tt).
Definition print (line : string) : M unit := emit (Print line).

Definition do_input (prompt : string) : M string := λ w,
  let '(w', line) := input w prompt in (w', [Input prompt], inr line).

Definition http_get (url : string) (headers : Headers)
  : M (RequestException + Response) := λ w,
  let '(w', r) := requests_get w url headers in
  (w', [HttpGet url headers], inr r).

Definition http_delete (url : string) (headers : Headers)
  : M (RequestException + Response) := λ w,
  let '(w', r) := requests_delete w url headers in
  (w', [HttpDelete url headers], inr r).

(** [d[key]] on a dict. *)
Definition getitem (d : Folder) (key : string) : M string :=
  match d !! key with
  | Some v => mret v
  | None => raise (KeyError key)
  end.

(** [for x in xs: body(x)] *)
Fixpoint for_each {A} (body : A → M unit) (xs : list A) : M unit :=
  match xs with
  | [] => mret tt
  | x :: xs' => body x ;; for_each body xs'
  end.

(** [get_env_var]: the environment variable, or a prompt when it is
    unset or empty. *)
Definition get_env_var (var_name prompt_text : string) : M string :=
  match os_environ !! var_name with
  | Some (String c v) => mret (String c v)
  | _ => do_input (prompt_text +:+ ": ")
  end.

(** The [try] block around the listing: [inl e] when one of its three
    calls raises a [RequestException], the listing otherwise. *)
Definition list_folders (grafana_url : string) (headers : Headers)
  : M (RequestException + list Folder) :=
  r ← http_get (list_url grafana_url) headers;
  mret (list_result r).

(** The body of the [for folder in folders] loop. *)
Definition delete_folder (grafana_url : string) (headers : Headers)
    (folder : Folder) : M unit :=
  uid ← getitem folder "uid";
  title ← getitem folder "title";
  print (msg_deleting title uid);;
  r ← http_delete (delete_url grafana_url uid) headers;
  match r with
  | inr del_response =>
      if bool_decide (status_code del_response = 200%Z)
      then print (msg_success title)
      else print (msg_failed title (status_code del_response)
                    (text del_response))
  | inl e => print (msg_error title e)
  end.

Definition clean_folders : M unit :=
  print banner1;;
  print banner2;;
  grafana_url ← get_env_var "GRAFANA_URL" url_prompt;
  grafana_auth ← get_env_var "GRAFANA_AUTH" auth_prompt;
  let headers := make_headers grafana_auth in
  let grafana_url := remove_trailing_slash grafana_url in
  listed ← list_folders grafana_url headers;
  match listed with
  | inl e => print (msg_list_error e)
  | inr folders =>
      print (msg_found (length folders));;
      for_each (delete_folder grafana_url headers) folders
  end.

End Script.


(** ** Reading a trace *)

(** The requests of a run, in order: URL and headers. *)
Definition requests (t : list Event) : list (string * Headers) :=
  flat_map (λ ev, match ev with
                  | HttpGet u h | HttpDelete u h => [(u, h)]
                  | _ => []
                  end) t.

(** The URLs of the [DELETE] requests of a run, in order. *)
Definition delete_attempts (t : list Event) : list string :=
  flat_map (λ ev, match ev with HttpDelete u _ => [u] | _ => [] end) t.

(** The lines printed by a run, in order. *)
Definition printed (t : list Event) : list string :=
  flat_map (λ ev, match ev with Print l => [l] | _ => [] end) t.

(** The prompts shown by a run, in order. *)
Definition prompts (t : list Event) : list string :=
  flat_map (λ ev, match ev with Input p => [p] | _ => [] end) t.

(** The URLs of the [GET] requests of a run, in order. *)
Definition gets (t : list Event) : list string :=
  flat_map (λ ev, match ev with HttpGet u _ => [u] | _ => [] end) t.

(** The value of an environment variable as [get_env_var] takes it: a
    variable that is unset or set to the empty string gives none. *)
Definition env_value (environ : gmap string string) (var_name : string)
  : option string :=
  match environ !! var_name with
  | Some (String c v) => Some (String c v)
  | _ => None
  end.

(** The prompts that a run has to show: one per setting without a value
    in the environment, the URL before the credential. *)
Definition missing_prompts (environ : gmap string string) : list string :=
  match env_value environ "GRAFANA_URL" with
  | Some _ => []
  | None => [url_prompt +:+ ": "]
  end
  ++ match env_value environ "GRAFANA_AUTH" with
     | Some _ => []
     | None => [auth_prompt +:+ ": "]
     end.

(** The two fields that the loop reads from a folder. *)
Definition folder_uid (f : Folder) : string := default "" (f !! "uid").
Definition folder_title (f : Folder) : string := default "" (f !! "title").
Definition has_fields (f : Folder) : Prop :=
  is_Some (f !! "uid") ∧ is_Some (f !! "title").

#[global] Instance has_fields_dec (f : Folder) : Decision (has_fields f).
Proof. unfold has_fields. apply _. Defined.

(** The line that reports the answer [r] to the [DELETE] of a folder: the
    three branches of the loop body. *)
Definition report_line (title : string) (r : RequestException + Response)
  : string :=
  match r with
  | inr resp =>
      if bool_decide (status_code resp = 200%Z) then msg_success title
      else msg_failed title (status_code resp) (text resp)
  | inl e => msg_error title e
  end.

(** Its two failure branches. *)
Definition failure_line (title : string) (r : RequestException + Response)
  : string :=
  match r with
  | inr resp => msg_failed title (status_code resp) (text resp)
  | inl e => msg_error title e
  end.

(** What the loop emits for a folder with both fields when its [DELETE]
    is answered by [r]. *)
Definition folder_events (grafana_url : string) (headers : Headers)
    (f : Folder) (r : RequestException + Response) : list Event :=
  [Print (msg_deleting (folder_title f) (folder_uid f));
   HttpDelete (delete_url grafana_url (folder_uid f)) headers;
   Print (report_line (folder_title f) r)].

(** A [DELETE] succeeded: a response came back and its status is 200. *)
Definition delete_ok (r : RequestException + Response) : Prop :=
  match r with
  | inr resp => status_code resp = 200%Z
  | inl _ => False
  end.

(** ** A concrete Grafana for examples *)

Module Grafana.

(** The state of the server: the number of requests served so far. *)
Definition Server : Type := nat.

Definition ok_response (fs : list Folder) : Response :=
  {| status_code := 200; text := "[...]";
     raise_for_status := None; json := inr fs |}.

Definition forbidden : Response :=
  {| status_code := 403; text := "forbidden";
     raise_for_status :=
       Some {| exn_str := "403 Client Error: Forbidden" |};
     json := inl {| exn_str := "Expecting value" |} |}.

Definition deleted : Response :=
  {| status_code := 200; text := "{}";
     raise_for_status := None;
     json := inl {| exn_str := "not a listing" |} |}.

Definition unreachable : RequestException :=
  {| exn_str := "Connection refused" |}.

Definition environ : gmap string string :=
  {[ "GRAFANA_URL" := "http://localhost:3000/";
     "GRAFANA_AUTH" := "s3cr3t" ]}.

Definition input (w : Server) (prompt : string) : Server * string :=
  (w, "").

(** A server that answers every [GET] with [listing]. *)
Definition get (listing : RequestException + Response)
    (w : Server) (url : string) (h : Headers)
  : Server * (RequestException + Response) := (S w, listing).

(** A server that refuses (403) the [DELETE] of the URLs in [denied]
    and answers 200 to every other one. *)
Definition delete (denied : list string)
    (w : Server) (url : string) (h : Headers)
  : Server * (RequestException + Response) :=
  (S w, inr (if bool_decide (url ∈ denied) then forbidden else deleted)).

(** A run against a server that lists [fs] and deletes what it is
    asked to. *)
Definition run (fs : list Folder) : Server * list Event * (PyExn + unit) :=
  clean_folders environ input (get (inr (ok_response fs))) (delete []) 0.

Definition folder (uid title : string) : Folder :=
  {[ "uid" := uid; "title" := title ]}.

Definition base : string := "http://localhost:3000".
Definition headers : Headers := make_headers "s3cr3t".

End Grafana.

(** An answer to the listing that is an HTTP error although its body
    decodes to a listing. *)
Definition forbidden_listing : Response :=
  {| status_code := 403;
     text := "[{...}]";
     raise_for_status :=
       Some {| exn_str := "403 Client Error: Forbidden for url" |};
     json := inr [Grafana.folder "b2" "Team Dashboards"] |}.

(** A server on which the [DELETE] of the URLs in [broken] times out
    (the transport raises) and every other [DELETE] is answered 200. *)
Definition timing_out (broken : list string)
    (w : Grafana.Server) (url : string) (h : Headers)
  : Grafana.Server * (RequestException + Response) :=
  (S w,
   if bool_decide (url ∈ broken) then inl {| exn_str := "Read timed out." |}
   else inr Grafana.deleted).

(** An operator at the console who types a URL and a credential when
    asked. *)
Definition typed_settings (w : Grafana.Server) (prompt : string)
  : Grafana.Server * string :=
  (S w,
   if String.prefix url_prompt prompt then "http://grafana.local:3000/"
   else "Basic YWRtaW46YWRtaW4=").

(** * Properties *)

(** ** Strings *)

#[local] Arguments String.append !_ _ / : simpl nomatch.

Lemma prefix_iff (sub s : string) :
  String.prefix sub s = true ↔ ∃ rest, s = sub +:+ rest.
Proof.
  revert sub. induction s as [|d s IH]; intros [|c sub]; simpl.
  - split; [by exists "" | done].
  - split; [done | intros [rest ?]; discriminate].
  - split; [by exists (String d s) | done].
  - destruct (Ascii.ascii_dec c d) as [->|Hne].
    + rewrite IH. split; intros [rest E]; exists rest; simpl in *; congruence.
    + split; [done | intros [rest E]; simpl in E; congruence].
Qed.

Lemma str_in_nil (sub : string) : str_in sub "" = String.prefix sub "".
Proof. unfold str_in. apply orb_false_r. Qed.

Lemma str_in_cons (sub : string) (c : Ascii.ascii) (s : string) :
  str_in sub (String c s) = String.prefix sub (String c s) || str_in sub s.
Proof. reflexivity. Qed.

Lemma str_in_iff (sub s : string) :
  str_in sub s = true ↔ ∃ before after, s = before +:+ sub +:+ after.
Proof.
  induction s as [|c s IH].
  - rewrite str_in_nil, prefix_iff. split.
    + intros [rest E]. by exists "", rest.
    + intros ([|d before] & after & E); [by exists after | discriminate].
  - rewrite str_in_cons, orb_true_iff, prefix_iff, IH. split.
    + intros [[rest E] | (before & after & E)].
      * by exists "", rest.
      * exists (String c before), after. simpl. by rewrite E.
    + intros ([|d before] & after & E).
      * left. by exists after.
      * right. exists before, after. simpl in E. congruence.
Qed.

Lemma str_in_middle (sub before after : string) :
  str_in sub (before +:+ sub +:+ after) = true.
Proof. apply str_in_iff. by exists before, after. Qed.

Lemma prefix_str_in (sub s : string) :
  String.prefix sub s = true → str_in sub s = true.
Proof.
  intros H. destruct s as [|c s]; [by rewrite str_in_nil |].
  by rewrite str_in_cons, H.
Qed.

Lemma append_assoc (a b c : string) : (a +:+ b) +:+ c = a +:+ b +:+ c.
Proof. induction a as [|x a IH]; simpl; [done | by rewrite IH]. Qed.

Lemma append_nil_r (a : string) : a +:+ "" = a.
Proof. induction a as [|x a IH]; simpl; [done | by rewrite IH]. Qed.

Lemma endswith_nil (suffix : string) :
  endswith "" suffix = String.eqb "" suffix.
Proof. unfold endswith. apply orb_false_r. Qed.

Lemma endswith_cons (c : Ascii.ascii) (s suffix : string) :
  endswith (String c s) suffix
  = String.eqb (String c s) suffix || endswith s suffix.
Proof. reflexivity. Qed.

Lemma endswith_iff (s suffix : string) :
  endswith s suffix = true ↔ ∃ before, s = before +:+ suffix.
Proof.
  induction s as [|c s IH].
  - rewrite endswith_nil, String.eqb_eq. split.
    + intros <-. by exists "".
    + intros ([|d before] & E); [done | discriminate].
  - rewrite endswith_cons, orb_true_iff, String.eqb_eq, IH. split.
    + intros [<- | [before ->]]; [by exists "" | by exists (String c before)].
    + intros ([|d before] & E); [by left |].
      right. exists before. simpl in E. congruence.
Qed.

Lemma drop_last_snoc (s : string) (c : Ascii.ascii) :
  drop_last (s +:+ String c "") = s.
Proof.
  induction s as [|d s IH]; simpl; [done |].
  rewrite IH. by destruct s.
Qed.

Lemma remove_trailing_slash_strips (s : string) :
  remove_trailing_slash (s +:+ "/") = s.
Proof.
  unfold remove_trailing_slash.
  replace (endswith (s +:+ "/") "/") with true
    by (symmetry; apply endswith_iff; by exists s).
  apply drop_last_snoc.
Qed.

Lemma remove_trailing_slash_keeps (s : string) :
  endswith s "/" = false → remove_trailing_slash s = s.
Proof. unfold remove_trailing_slash. by intros ->. Qed.

(** A credential that merely contains one of the two words, anywhere, is
    sent as it is. *)
Lemma authorization_contains (grafana_auth : string) :
  str_in "Basic" grafana_auth = true ∨ str_in "Bearer" grafana_auth = true →
  authorization grafana_auth = grafana_auth.
Proof.
  unfold authorization. intros H. apply orb_true_iff in H. by rewrite H.
Qed.

Example authorization_inner_word :
  authorization "token-with-Bearer-inside" = "token-with-Bearer-inside".
Proof. reflexivity. Qed.

(** ** The loop *)

Section Run.

Context {World : Type}.
Variable os_environ : gmap string string.
Variable input : World → string → World * string.
Variable requests_get :
  World → string → Headers → World * (RequestException + Response).
Variable requests_delete :
  World → string → Headers → World * (RequestException + Response).

Section Loop.

Variable grafana_url : string.
Variable headers : Headers.

Let body := delete_folder requests_delete grafana_url headers.
Let answer (w : World) (f : Folder) :=
  requests_delete w (delete_url grafana_url (folder_uid f)) headers.

Lemma has_fields_lookup (f : Folder) :
  has_fields f →
  f !! "uid" = Some (folder_uid f) ∧ f !! "title" = Some (folder_title f).
Proof.
  unfold folder_uid, folder_title. by intros [[u ->] [t ->]].
Qed.

Lemma delete_folder_fields (f : Folder) (w : World) :
  has_fields f →
  body f w
  = ((answer w f).1, folder_events grafana_url headers f (answer w f).2,
     inr tt).
Proof.
  intros [Hu Ht]%has_fields_lookup.
  unfold body, answer, delete_folder, getitem, folder_events, report_line.
  rewrite Hu, Ht.
  unfold mbind, M_bind, mret, M_ret, print, emit, http_delete. simpl.
  destruct (requests_delete w _ headers) as [w' [e|resp]]; simpl;
    [done |].
  by destruct (bool_decide (status_code resp = 200%Z)).
Qed.

Lemma delete_folder_malformed (f : Folder) (w : World) :
  ¬ has_fields f →
  ∃ key, (key = "uid" ∨ key = "title") ∧ f !! key = None ∧
         body f w = (w, [], inl (KeyError key)).
Proof.
  intros Hno. unfold body, delete_folder, getitem.
  destruct (f !! "uid") as [u|] eqn:Hu.
  - destruct (f !! "title") as [t|] eqn:Ht.
    + destruct Hno. unfold has_fields. rewrite Hu, Ht. by eauto.
    + exists "title". by split; [right |].
  - exists "uid". by split; [left |].
Qed.

Lemma for_each_cons (f : Folder) (fs : list Folder) (w : World) :
  for_each body (f :: fs) w
  = match body f w with
    | (w1, t1, inl e) => (w1, t1, inl e)
    | (w1, t1, inr _) =>
        match for_each body fs w1 with
        | (w2, t2, r) => (w2, t1 ++ t2, r)
        end
    end.
Proof. reflexivity. Qed.

Lemma report_line_ok (title : string) (r : RequestException + Response) :
  delete_ok r → report_line title r = msg_success title.
Proof.
  destruct r as [e|resp]; simpl; [done |].
  intros ->. by rewrite bool_decide_eq_true_2.
Qed.

Lemma report_line_failure (title : string)
    (r : RequestException + Response) :
  ¬ delete_ok r → report_line title r = failure_line title r.
Proof.
  destruct r as [e|resp]; simpl; [done |].
  intros Hno. by rewrite bool_decide_eq_false_2.
Qed.


Lemma msg_failed_detail (title : string) (code : Z) (detail : string) :
  str_in (pretty code) (msg_failed title code detail) = true
  ∧ str_in detail (msg_failed title code detail) = true.
Proof.
  unfold msg_failed. split; apply str_in_iff.
  - exists ("Failed to delete " +:+ title +:+ ": "), (" - " +:+ detail).
    by rewrite !append_assoc.
  - exists ("Failed to delete " +:+ title +:+ ": " +:+ pretty code
            +:+ " - "), "".
    by rewrite !append_assoc, append_nil_r.
Qed.

(** The loop over folders that all have their fields: one
    announcement, one [DELETE] and one report per folder, whatever the
    answers, and then the rest of the loop. *)
Lemma for_each_fields_app (pre post : list Folder) (w : World) :
  Forall has_fields pre →
  ∃ w' rs,
    Forall2 (λ f r, ∃ wi, (answer wi f).2 = r) pre rs
    ∧ for_each body (pre ++ post) w
      = (let rest := for_each body post w' in
         (rest.1.1,
          concat (zip_with (folder_events grafana_url headers) pre rs)
            ++ rest.1.2,
          rest.2)).
Proof.
  intros Hpre. revert w.
  induction Hpre as [|f pre Hf Hpre IH]; intros w.
  - exists w, []. split; [constructor |]. simpl.
    by destruct (for_each body post w) as [[w' t] r].
  - destruct (IH (answer w f).1) as (w' & rs & Hrs & E).
    exists w', ((answer w f).2 :: rs). split.
    + constructor; [by exists w | done].
    + change ((f :: pre) ++ post) with (f :: (pre ++ post)).
      rewrite for_each_cons, delete_folder_fields by done.
      rewrite E. simpl. by rewrite <- ?app_assoc.
Qed.

Lemma for_each_fields (fs : list Folder) (w : World) :
  Forall has_fields fs →
  ∃ w' rs,
    Forall2 (λ f r, ∃ wi, (answer wi f).2 = r) fs rs
    ∧ for_each body fs w
      = (w', concat (zip_with (folder_events grafana_url headers) fs rs),
         inr tt).
Proof.
  intros Hfs.
  destruct (for_each_fields_app fs [] w Hfs) as (w' & rs & Hrs & E).
  exists w', rs. split; [done |].
  rewrite app_nil_r in E. rewrite E. simpl. by rewrite app_nil_r.
Qed.

Lemma delete_attempts_app (t1 t2 : list Event) :
  delete_attempts (t1 ++ t2) = delete_attempts t1 ++ delete_attempts t2.
Proof. apply flat_map_app. Qed.

Lemma requests_app (t1 t2 : list Event) :
  requests (t1 ++ t2) = requests t1 ++ requests t2.
Proof. apply flat_map_app. Qed.

Lemma printed_app (t1 t2 : list Event) :
  printed (t1 ++ t2) = printed t1 ++ printed t2.
Proof. apply flat_map_app. Qed.

(** One attempt per folder, in the order of the listing. *)
Lemma delete_attempts_fields (fs : list Folder)
    (rs : list (RequestException + Response)) :
  length rs = length fs →
  delete_attempts
    (concat (zip_with (folder_events grafana_url headers) fs rs))
  = (λ f, delete_url grafana_url (folder_uid f)) <$> fs.
Proof.
  revert rs. induction fs as [|f fs IH]; intros [|r rs] Hlen;
    simplify_eq/=; [done |].
  f_equal. by apply IH.
Qed.

(** What the loop does on a listing whose folders all have their
    fields: it raises nothing and sends one [DELETE] per listed
    folder, whatever its title, in the order of the listing. *)
Lemma for_each_attempts (fs : list Folder) (w : World) :
  Forall has_fields fs →
  (for_each body fs w).2 = inr tt
  ∧ delete_attempts (for_each body fs w).1.2
    = (λ f, delete_url grafana_url (folder_uid f)) <$> fs.
Proof.
  intros Hfs. destruct (for_each_fields fs w Hfs) as (w' & rs & Hrs & ->).
  split; [done |]. simpl. apply delete_attempts_fields.
  symmetry. by eapply Forall2_length.
Qed.

(** In particular the title plays no part: every listed folder is a
    target. *)
Lemma every_listed_folder_attempted (fs : list Folder) (f : Folder)
    (w : World) :
  Forall has_fields fs →
  f ∈ fs →
  delete_url grafana_url (folder_uid f)
  ∈ delete_attempts (for_each body fs w).1.2.
Proof.
  intros Hfs Hin. destruct (for_each_attempts fs w Hfs) as [_ ->].
  by apply (list_elem_of_fmap_2 (λ f, delete_url grafana_url (folder_uid f))).
Qed.

(** Every request of the loop is a [DELETE] below the base URL that
    carries the headers handed to the loop, on any listing. *)
Lemma for_each_requests (fs : list Folder) (w : World) :
  Forall (λ rq, String.prefix (grafana_url +:+ "/api/folders") rq.1 = true
                ∧ rq.2 = headers)
    (requests (for_each body fs w).1.2).
Proof.
  revert w. induction fs as [|f fs IH]; intros w; [by constructor |].
  rewrite for_each_cons. destruct (decide (has_fields f)) as [Hf|Hf].
  - rewrite delete_folder_fields by done.
    specialize (IH (answer w f).1).
    destruct (for_each body fs (answer w f).1) as [[w2 t2] r].
    simpl in *. constructor; [|done]. split; [|done].
    apply prefix_iff. exists ("/" +:+ folder_uid f).
    unfold delete_url. by rewrite !append_assoc.
  - destruct (delete_folder_malformed f w Hf) as (key & _ & _ & ->).
    by constructor.
Qed.

Lemma failure_line_not_success (title title' : string)
    (r : RequestException + Response) :
  failure_line title r ≠ msg_success title'.
Proof.
  destruct r as [e|resp]; unfold failure_line, msg_success, msg_failed,
    msg_error; simpl; discriminate.
Qed.

Lemma msg_error_detail (title : string) (e : RequestException) :
  str_in (exn_str e) (msg_error title e) = true.
Proof.
  unfold msg_error. apply str_in_iff.
  exists ("Error deleting folder " +:+ title +:+ ": "), "".
  by rewrite !append_assoc, append_nil_r.
Qed.

(** The loop over folders that all have their fields, from a world of a
    set of worlds that no [DELETE] leaves: every answer is one given in
    a world of that set. *)
Lemma for_each_fields_inv (Inv : World → Prop) (fs : list Folder)
    (w : World) :
  Forall has_fields fs →
  Inv w →
  (∀ wi url, Inv wi → Inv (requests_delete wi url headers).1) →
  ∃ w' rs,
    Forall2 (λ f r, ∃ wi, Inv wi ∧ (answer wi f).2 = r) fs rs
    ∧ for_each body fs w
      = (w', concat (zip_with (folder_events grafana_url headers) fs rs),
         inr tt).
Proof.
  intros Hfs Hw Hstep. revert w Hw.
  induction Hfs as [|f fs Hf Hfs IH]; intros w Hw.
  - by exists w, [].
  - destruct (IH (answer w f).1) as (w' & rs & Hrs & E).
    { by apply Hstep. }
    exists w', ((answer w f).2 :: rs). split.
    + constructor; [by exists w | done].
    + rewrite for_each_cons, delete_folder_fields by done.
      by rewrite E.
Qed.

(** C4. Failure isolation.  The loop starts in a world of a set [Inv] of
    worlds that no [DELETE] leaves (all worlds, or those that the run
    can reach).  When in these worlds the [DELETE] of uid [uid_R] fails
    with answer [r_R] (a status other than 200, or an exception of the
    transport) and the [DELETE] of every other listed folder succeeds,
    the loop still goes through the whole listing, in order, and raises
    nothing.  The folders with uid [uid_R] are reported by the failure
    line, which is not a success line and which contains the detail of
    [r_R] (the text of the exception, or the status code and the body);
    all the others are reported as deleted. *)
Theorem failure_isolation (Inv : World → Prop) (fs : list Folder)
    (uid_R : string) (r_R : RequestException + Response) (w : World) :
  Forall has_fields fs →
  ¬ delete_ok r_R →
  Inv w →
  (∀ wi url, Inv wi → Inv (requests_delete wi url headers).1) →
  (∀ wi, Inv wi →
     (requests_delete wi (delete_url grafana_url uid_R) headers).2 = r_R) →
  (∀ wi f, Inv wi → f ∈ fs → folder_uid f ≠ uid_R →
     delete_ok (requests_delete wi
                  (delete_url grafana_url (folder_uid f)) headers).2) →
  let failed (title : string) : string :=
    match r_R with
    | inl e => "Error deleting folder " +:+ title +:+ ": " +:+ exn_str e
    | inr resp =>
        "Failed to delete " +:+ title +:+ ": "
        +:+ pretty (status_code resp) +:+ " - " +:+ text resp
    end in
  (∀ title title', failed title ≠ "Successfully deleted " +:+ title')
  ∧ (∀ title,
       match r_R with
       | inl e => str_in (exn_str e) (failed title) = true
       | inr resp =>
           str_in (pretty (status_code resp)) (failed title) = true
           ∧ str_in (text resp) (failed title) = true
       end)
  ∧ ∃ w',
    for_each (delete_folder requests_delete grafana_url headers) fs w
    = (w',
       flat_map (λ f,
         [Print ("Deleting folder: " +:+ folder_title f
                 +:+ " (uid: " +:+ folder_uid f +:+ ") ...");
          HttpDelete
            (grafana_url +:+ "/api/folders/" +:+ folder_uid f) headers;
          Print (if bool_decide (folder_uid f = uid_R)
                 then failed (folder_title f)
                 else "Successfully deleted " +:+ folder_title f)]) fs,
       inr tt).
Proof.
  intros Hfs Hfail Hw Hstep HR Hothers failed.
  assert (Hfailed : ∀ title, failed title = failure_line title r_R)
    by (intros title; unfold failed; by destruct r_R).
  split; [|split].
  - intros title title'. rewrite Hfailed.
    apply failure_line_not_success.
  - intros title. unfold failed. destruct r_R as [e|resp].
    + apply msg_error_detail.
    + apply msg_failed_detail.
  - destruct (for_each_fields_inv Inv fs w Hfs Hw Hstep)
      as (w' & rs & Hrs & E).
    exists w'. fold body. rewrite E. do 2 f_equal.
    assert (Hall : Forall (λ f, folder_uid f ≠ uid_R →
              ∀ wi, Inv wi → delete_ok (answer wi f).2) fs).
    { apply Forall_forall. intros f Hin Hne wi Hwi. by apply Hothers. }
    clear E Hothers Hfs.
    induction Hrs as [|f r fs rs (wi & Hwi & Hr) Hrs IH]; [done |].
    apply Forall_cons in Hall as [Hf Hall]. simpl.
    rewrite IH by done. unfold folder_events.
    change (msg_deleting (folder_title f) (folder_uid f))
      with ("Deleting folder: " +:+ folder_title f
            +:+ " (uid: " +:+ folder_uid f +:+ ") ...").
    change (delete_url grafana_url (folder_uid f))
      with (grafana_url +:+ "/api/folders/" +:+ folder_uid f).
    do 3 f_equal.
    case_bool_decide as Huid.
    + assert (r = r_R) as ->.
      { rewrite <- Hr. unfold answer. rewrite Huid. by apply HR. }
      by rewrite report_line_failure, Hfailed.
    + rewrite report_line_ok; [done |]. rewrite <- Hr. by apply Hf.
Qed.


End Loop.

(** ** The whole run *)

Lemma get_env_var_run (var_name prompt_text : string) (w : World) :
  ∃ w' t value,
    get_env_var os_environ input var_name prompt_text w = (w', t, inr value)
    ∧ requests t = [] ∧ printed t = []
    ∧ (∀ c v, os_environ !! var_name = Some (String c v) →
              value = String c v).
Proof.
  unfold get_env_var.
  destruct (os_environ !! var_name) as [[|c v]|] eqn:E.
  2: { exists w, [], (String c v). repeat split; [done..|]. congruence. }
  all: unfold do_input;
    destruct (input w (prompt_text +:+ ": ")) as [w' line] eqn:Ein;
    exists w', [Input (prompt_text +:+ ": ")], line;
    repeat split; done.
Qed.

(** The run up to the loop: the banner and the two settings, then the
    listing; a listing that fails ends the run, any other is handed to
    the loop together with the stripped URL and the headers. *)
Lemma clean_folders_run (w : World) :
  ∃ w1 t1 url auth,
    requests t1 = [] ∧ printed t1 = [banner1; banner2]
    ∧ (∀ c v, os_environ !! "GRAFANA_URL" = Some (String c v) →
              url = String c v)
    ∧ (∀ c v, os_environ !! "GRAFANA_AUTH" = Some (String c v) →
              auth = String c v)
    ∧ clean_folders os_environ input requests_get requests_delete w
      = (let base := remove_trailing_slash url in
         let hdrs := make_headers auth in
         let got := requests_get w1 (list_url base) hdrs in
         match list_result got.2 with
         | inl e =>
             (got.1,
              t1 ++ [HttpGet (list_url base) hdrs;
                     Print (msg_list_error e)],
              inr tt)
         | inr fs =>
             let rest :=
               for_each (delete_folder requests_delete base hdrs) fs got.1
             in
             (rest.1.1,
              t1 ++ [HttpGet (list_url base) hdrs;
                     Print (msg_found (length fs))] ++ rest.1.2,
              rest.2)
         end).
Proof.
  destruct (get_env_var_run "GRAFANA_URL" url_prompt w)
    as (wa & ta & url & Ea & Hra & Hpa & Hurl).
  destruct (get_env_var_run "GRAFANA_AUTH" auth_prompt wa)
    as (wb & tb & auth & Eb & Hrb & Hpb & Hauth).
  exists wb, ([Print banner1; Print banner2] ++ ta ++ tb), url, auth.
  split; [|split; [|split; [done | split; [done |]]]].
  - simpl. by rewrite requests_app, Hra, Hrb.
  - simpl. by rewrite printed_app, Hpa, Hpb.
  - unfold clean_folders, list_folders, http_get, mbind, M_bind, mret,
      M_ret, print, emit. rewrite Ea, Eb. simpl.
    destruct (requests_get wb _ _) as [w2 r]. simpl.
    destruct (list_result r) as [e|fs]; simpl.
    + by rewrite <- !app_assoc.
    + destruct (for_each _ fs w2) as [[w3 t3] res]. simpl.
      by rewrite <- !app_assoc.
Qed.

Lemma requests_nil_delete_attempts (t : list Event) :
  requests t = [] → delete_attempts t = [].
Proof.
  induction t as [|[l|p|u h|u h] t IH]; simpl; try done.
Qed.

Lemma list_result_inl (r : RequestException + Response)
    (e : RequestException) :
  list_result r = inl e ↔
  r = inl e
  ∨ ∃ resp, r = inr resp
      ∧ (raise_for_status resp = Some e
         ∨ raise_for_status resp = None ∧ json resp = inl e).
Proof.
  destruct r as [e'|resp]; simpl.
  - split; [intros [= ->]; by left | intros [[= ->]|(? & [=] & _)]; done].
  - destruct (raise_for_status resp) as [e'|] eqn:Hst; split.
    + intros [= ->]. right. exists resp. by split; [|left].
    + intros [[=]|(? & [= <-] & [E|[E _]])]; congruence.
    + intros Hj. right. exists resp. by split; [|right].
    + intros [[=]|(? & [= <-] & [E|[_ E]])]; congruence.
Qed.

(** The requests of a run: the listing first, then only [DELETE]s
    below the stripped base URL, all of them with the headers built
    before the listing. *)
Lemma clean_folders_requests (w : World) :
  ∃ url auth rqs,
    (∀ c v, os_environ !! "GRAFANA_URL" = Some (String c v) →
            url = String c v)
    ∧ (∀ c v, os_environ !! "GRAFANA_AUTH" = Some (String c v) →
              auth = String c v)
    ∧ requests
        (clean_folders os_environ input requests_get requests_delete w).1.2
      = (list_url (remove_trailing_slash url), make_headers auth) :: rqs
    ∧ Forall (λ rq,
        String.prefix (remove_trailing_slash url +:+ "/api/folders") rq.1
        = true
        ∧ rq.2 = make_headers auth) rqs.
Proof.
  destruct (clean_folders_run w)
    as (w1 & t1 & url & auth & Hr1 & _ & Hurl & Hauth & E).
  rewrite E. clear E. simpl.
  destruct (requests_get w1 _ _) as [w2 r]. simpl.
  destruct (list_result r) as [e|fs]; simpl.
  - exists url, auth, []. repeat split; try done.
    by rewrite requests_app, Hr1.
  - pose proof (for_each_requests (remove_trailing_slash url)
                  (make_headers auth) fs w2) as Hloop.
    destruct (for_each _ fs w2) as [[w3 t3] res]. simpl in *.
    exists url, auth, (requests t3). repeat split; try done.
    by rewrite requests_app, Hr1.
Qed.

(** C3. When the listing fails with [e] (the transport raises [e], or a
    response comes back and [raise_for_status()] raises [e] on it,
    whatever its body, or [json()] raises [e] on it), the run ends at
    once and normally: the [GET] is followed by the line that reports
    [e] and by nothing else; not one [DELETE] is sent, the listing is
    the only request, and after the banner the report of [e] is the
    only line printed. *)
Theorem list_failure_aborts (e : RequestException) (w : World) :
  (∀ wi url h,
     (requests_get wi url h).2 = inl e
     ∨ ∃ response,
         (requests_get wi url h).2 = inr response
         ∧ (raise_for_status response = Some e
            ∨ raise_for_status response = None
              ∧ json response = inl e)) →
  ∃ w' t0 url h,
    clean_folders os_environ input requests_get requests_delete w
    = (w',
       t0 ++ [HttpGet url h;
              Print ("Error listing folders: " +:+ exn_str e)],
       inr tt)
    ∧ requests t0 = []
    ∧ delete_attempts
        (clean_folders os_environ input requests_get requests_delete w).1.2
      = []
    ∧ length
        (requests
           (clean_folders os_environ input requests_get requests_delete
              w).1.2) = 1
    ∧ printed
        (clean_folders os_environ input requests_get requests_delete w).1.2
      = [banner1; banner2; "Error listing folders: " +:+ exn_str e].
Proof.
  intros Hfail.
  destruct (clean_folders_run w)
    as (w1 & t1 & url & auth & Hr1 & Hp1 & _ & _ & E).
  rewrite E. clear E. simpl.
  assert (Hlist :
    list_result
      (requests_get w1 (list_url (remove_trailing_slash url))
         (make_headers auth)).2 = inl e).
  { destruct (Hfail w1 (list_url (remove_trailing_slash url))
                (make_headers auth))
      as [-> | (response & -> & [Hst | [Hst Hjson]])]; simpl;
      [done | by rewrite Hst | by rewrite Hst]. }
  rewrite Hlist. eexists _, t1, _, _. split; [done |].
  split; [done |]. simpl.
  rewrite delete_attempts_app, requests_app, printed_app, Hr1, Hp1.
  by rewrite requests_nil_delete_attempts.
Qed.

(** C7. A base URL that ends with "/" loses that one character, any
    other base URL is kept as it is, and every URL requested by a run
    is built on the result. *)
Theorem trailing_slash_stripped :
  (∀ url, endswith url "/" = true →
          remove_trailing_slash url +:+ "/" = url)
  ∧ (∀ url, endswith url "/" = false → remove_trailing_slash url = url)
  ∧ (∀ w, ∃ url,
       (∀ c v, os_environ !! "GRAFANA_URL" = Some (String c v) →
               url = String c v)
       ∧ Forall (λ rq,
           String.prefix (remove_trailing_slash url +:+ "/api/folders")
             rq.1 = true)
           (requests
              (clean_folders os_environ input requests_get
                 requests_delete w).1.2)).
Proof.
  split; [|split].
  - intros url [before ->]%endswith_iff.
    by rewrite remove_trailing_slash_strips.
  - apply remove_trailing_slash_keeps.
  - intros w.
    destruct (clean_folders_requests w)
      as (url & auth & rqs & Hurl & _ & -> & Hrqs).
    exists url. split; [done |]. constructor.
    + simpl. apply prefix_iff. exists "". unfold list_url.
      by rewrite append_nil_r.
    + eapply Forall_impl; [done |]. by intros rq [? _].
Qed.

(** C9. A listed folder without a 'uid' or a 'title' ends the run with
    an uncaught [KeyError] on the missing field: the folders before it
    have had their [DELETE], neither it nor any folder after it gets
    one. *)
Theorem malformed_entry_aborts (pre post : list Folder) (bad : Folder)
    (w : World) :
  (∀ wi url h,
     list_result (requests_get wi url h).2 = inr (pre ++ bad :: post)) →
  Forall has_fields pre →
  ¬ has_fields bad →
  ∃ w' t key base,
    clean_folders os_environ input requests_get requests_delete w
    = (w', t, inl (KeyError key))
    ∧ (key = "uid" ∨ key = "title") ∧ bad !! key = None
    ∧ delete_attempts t = (λ f, delete_url base (folder_uid f)) <$> pre.
Proof.
  intros Hlist Hpre Hbad.
  destruct (clean_folders_run w)
    as (w1 & t1 & url & auth & Hr1 & _ & _ & _ & E).
  rewrite E. clear E. simpl. rewrite Hlist.
  destruct (for_each_fields_app (remove_trailing_slash url)
              (make_headers auth) pre (bad :: post)
              (requests_get w1 (list_url (remove_trailing_slash url))
                 (make_headers auth)).1 Hpre)
    as (w' & rs & Hrs & ->).
  rewrite for_each_cons.
  destruct (delete_folder_malformed
              (remove_trailing_slash url) (make_headers auth) bad w' Hbad)
    as (key & Hkey & Hnone & ->).
  simpl. exists w'. eexists _, key, (remove_trailing_slash url).
  split; [done |]. split; [done |]. split; [done |].
  rewrite !delete_attempts_app, requests_nil_delete_attempts by done.
  simpl. rewrite app_nil_r. apply delete_attempts_fields.
  symmetry. by eapply Forall2_length.
Qed.

(** C10. The headers are built once, from the credential, before the
    listing: Content-Type "application/json" and the Authorization
    value; the listing and every [DELETE] of the run carry exactly
    these headers. *)
Theorem headers_fixed (w : World) :
  ∃ auth,
    (∀ c v, os_environ !! "GRAFANA_AUTH" = Some (String c v) →
            auth = String c v)
    ∧ requests
        (clean_folders os_environ input requests_get requests_delete w).1.2
      ≠ []
    ∧ Forall (λ rq,
        rq.2 = [("Content-Type", "application/json");
                ("Authorization", authorization auth)])
        (requests
           (clean_folders os_environ input requests_get
              requests_delete w).1.2).
Proof.
  destruct (clean_folders_requests w)
    as (url & auth & rqs & _ & Hauth & -> & Hrqs).
  exists auth. split; [done |]. split; [done |].
  constructor; [done |].
  eapply Forall_impl; [done |]. by intros rq [_ ?].
Qed.

End Run.

(** ** The credential *)

(** C5. The Authorization header is the credential itself when the
    credential starts with "Basic" or with "Bearer", and "Bearer "
    followed by the credential when it contains neither word. *)
Theorem authorization_by_scheme (grafana_auth : string) :
  (String.prefix "Basic" grafana_auth = true
   ∨ String.prefix "Bearer" grafana_auth = true →
   authorization grafana_auth = grafana_auth)
  ∧ (str_in "Basic" grafana_auth = false →
     str_in "Bearer" grafana_auth = false →
     authorization grafana_auth = "Bearer " +:+ grafana_auth)
  ∧ (list_to_map (make_headers grafana_auth) : gmap string string)
      !! "Authorization" = Some (authorization grafana_auth).
Proof.
  split; [|split].
  - intros H. apply authorization_contains.
    destruct H as [H|H]; [left | right]; by apply prefix_str_in.
  - unfold authorization. by intros -> ->.
  - unfold make_headers. simpl.
    by rewrite lookup_insert_ne, lookup_insert_eq.
Qed.

Lemma authorization_by_scheme_witness :
  (String.prefix "Basic" "Basic dXNlcjpwYXNz" = true
   ∨ String.prefix "Bearer" "Basic dXNlcjpwYXNz" = true)
  ∧ authorization "Basic dXNlcjpwYXNz" = "Basic dXNlcjpwYXNz"
  ∧ str_in "Basic" "s3cr3t" = false
  ∧ str_in "Bearer" "s3cr3t" = false
  ∧ authorization "s3cr3t" = "Bearer s3cr3t".
Proof.
  split; [left; reflexivity |]. split.
  - apply (authorization_by_scheme "Basic dXNlcjpwYXNz").
    left. reflexivity.
  - split; [reflexivity |]. split; [reflexivity |].
    apply (authorization_by_scheme "s3cr3t"); reflexivity.
Defined.

(** ** Runs against the example server *)

Lemma list_failure_aborts_witness :
  let refused := Grafana.get (inl Grafana.unreachable) in
  let denied := Grafana.get (inr forbidden_listing) in
  let run get :=
    clean_folders Grafana.environ Grafana.input get (Grafana.delete []) 0 in
  (∀ wi url h,
     (refused wi url h).2 = inl Grafana.unreachable
     ∨ ∃ response,
         (refused wi url h).2 = inr response
         ∧ (raise_for_status response = Some Grafana.unreachable
            ∨ raise_for_status response = None
              ∧ json response = inl Grafana.unreachable))
  ∧ (run refused).2 = inr tt
  ∧ delete_attempts (run refused).1.2 = []
  ∧ printed (run refused).1.2
    = [banner1; banner2; "Error listing folders: Connection refused"]
  ∧ (∀ wi url h,
       (denied wi url h).2
       = inl {| exn_str := "403 Client Error: Forbidden for url" |}
       ∨ ∃ response,
           (denied wi url h).2 = inr response
           ∧ (raise_for_status response
              = Some {| exn_str := "403 Client Error: Forbidden for url" |}
              ∨ raise_for_status response = None
                ∧ json response
                  = inl {| exn_str := "403 Client Error: Forbidden for url" |}))
  ∧ (run denied).2 = inr tt
  ∧ delete_attempts (run denied).1.2 = []
  ∧ printed (run denied).1.2
    = [banner1; banner2;
       "Error listing folders: 403 Client Error: Forbidden for url"].
Proof.
  intros refused denied run.
  assert (H1 : ∀ wi url h,
     (refused wi url h).2 = inl Grafana.unreachable
     ∨ ∃ response,
         (refused wi url h).2 = inr response
         ∧ (raise_for_status response = Some Grafana.unreachable
            ∨ raise_for_status response = None
              ∧ json response = inl Grafana.unreachable))
    by (intros wi url h; left; reflexivity).
  assert (H2 : ∀ wi url h,
       (denied wi url h).2
       = inl {| exn_str := "403 Client Error: Forbidden for url" |}
       ∨ ∃ response,
           (denied wi url h).2 = inr response
           ∧ (raise_for_status response
              = Some {| exn_str := "403 Client Error: Forbidden for url" |}
              ∨ raise_for_status response = None
                ∧ json response
                  = inl {| exn_str := "403 Client Error: Forbidden for url" |}))
    by (intros wi url h; right; exists forbidden_listing;
        split; [reflexivity | left; reflexivity]).
  destruct (list_failure_aborts Grafana.environ Grafana.input refused
              (Grafana.delete []) Grafana.unreachable 0 H1)
    as (wa & ta & ua & ha & Ea & _ & Hda & _ & Hpa).
  destruct (list_failure_aborts Grafana.environ Grafana.input denied
              (Grafana.delete [])
              {| exn_str := "403 Client Error: Forbidden for url" |} 0 H2)
    as (wb & tb & ub & hb & Eb & _ & Hdb & _ & Hpb).
  split; [exact H1 |].
  split; [unfold run; rewrite Ea; reflexivity |].
  split; [exact Hda |]. split; [exact Hpa |].
  split; [exact H2 |].
  split; [unfold run; rewrite Eb; reflexivity |].
  split; [exact Hdb |]. exact Hpb.
Defined.

Lemma folder_lookup (uid title : string) :
  Grafana.folder uid title !! "uid" = Some uid
  ∧ Grafana.folder uid title !! "title" = Some title.
Proof.
  unfold Grafana.folder. split; [apply lookup_insert_eq |].
  rewrite lookup_insert_ne by done. apply lookup_insert_eq.
Qed.

Lemma has_fields_folder (uid title : string) :
  has_fields (Grafana.folder uid title).
Proof.
  destruct (folder_lookup uid title) as [Hu Ht].
  unfold has_fields. rewrite Hu, Ht. by split; eexists.
Qed.

Lemma folder_uid_folder (uid title : string) :
  folder_uid (Grafana.folder uid title) = uid.
Proof.
  unfold folder_uid. by destruct (folder_lookup uid title) as [-> _].
Qed.

Lemma failure_isolation_witness :
  let fs := [Grafana.folder "a1" "General";
             Grafana.folder "b2" "Team Dashboards";
             Grafana.folder "c3" "Alerts"] in
  let refusing := Grafana.delete [delete_url Grafana.base "b2"] in
  let failing := timing_out [delete_url Grafana.base "b2"] in
  let timeout : RequestException + Response :=
    inl {| exn_str := "Read timed out." |} in
  let Inv (w : Grafana.Server) := True in
  Forall has_fields fs
  ∧ ¬ delete_ok (inr Grafana.forbidden)
  ∧ ¬ delete_ok timeout
  ∧ Inv 0
  ∧ (∀ wi url, Inv wi → Inv (refusing wi url Grafana.headers).1)
  ∧ (∀ wi url, Inv wi → Inv (failing wi url Grafana.headers).1)
  ∧ (∀ wi, Inv wi →
       (refusing wi (delete_url Grafana.base "b2") Grafana.headers).2
       = inr Grafana.forbidden)
  ∧ (∀ wi, Inv wi →
       (failing wi (delete_url Grafana.base "b2") Grafana.headers).2
       = timeout)
  ∧ (∀ wi f, Inv wi → f ∈ fs → folder_uid f ≠ "b2" →
       delete_ok (refusing wi (delete_url Grafana.base (folder_uid f))
                    Grafana.headers).2)
  ∧ (∀ wi f, Inv wi → f ∈ fs → folder_uid f ≠ "b2" →
       delete_ok (failing wi (delete_url Grafana.base (folder_uid f))
                    Grafana.headers).2)
  ∧ (for_each (delete_folder refusing Grafana.base Grafana.headers) fs 0).2
    = inr tt
  ∧ (for_each (delete_folder refusing Grafana.base Grafana.headers) fs 0).1.2
    = ([Print "Deleting folder: General (uid: a1) ...";
        HttpDelete "http://localhost:3000/api/folders/a1" Grafana.headers;
        Print "Successfully deleted General";
        Print "Deleting folder: Team Dashboards (uid: b2) ...";
        HttpDelete "http://localhost:3000/api/folders/b2" Grafana.headers;
        Print "Failed to delete Team Dashboards: 403 - forbidden";
        Print "Deleting folder: Alerts (uid: c3) ...";
        HttpDelete "http://localhost:3000/api/folders/c3" Grafana.headers;
        Print "Successfully deleted Alerts"])
  ∧ (for_each (delete_folder failing Grafana.base Grafana.headers) fs 0).2
    = inr tt
  ∧ (for_each (delete_folder failing Grafana.base Grafana.headers) fs 0).1.2
    = ([Print "Deleting folder: General (uid: a1) ...";
        HttpDelete "http://localhost:3000/api/folders/a1" Grafana.headers;
        Print "Successfully deleted General";
        Print "Deleting folder: Team Dashboards (uid: b2) ...";
        HttpDelete "http://localhost:3000/api/folders/b2" Grafana.headers;
        Print "Error deleting folder Team Dashboards: Read timed out.";
        Print "Deleting folder: Alerts (uid: c3) ...";
        HttpDelete "http://localhost:3000/api/folders/c3" Grafana.headers;
        Print "Successfully deleted Alerts"]).
Proof.
  intros fs refusing failing timeout Inv.
  assert (H1 : Forall has_fields fs)
    by (repeat constructor; apply has_fields_folder).
  assert (H2 : ¬ delete_ok (inr Grafana.forbidden)) by (simpl; lia).
  assert (H2' : ¬ delete_ok timeout) by (simpl; tauto).
  assert (H0 : Inv 0) by exact I.
  assert (Hs : ∀ wi url, Inv wi → Inv (refusing wi url Grafana.headers).1)
    by (intros; exact I).
  assert (Hs' : ∀ wi url, Inv wi → Inv (failing wi url Grafana.headers).1)
    by (intros; exact I).
  assert (H3 : ∀ wi, Inv wi →
             (refusing wi (delete_url Grafana.base "b2") Grafana.headers).2
             = inr Grafana.forbidden) by (intros wi _; reflexivity).
  assert (H3' : ∀ wi, Inv wi →
             (failing wi (delete_url Grafana.base "b2") Grafana.headers).2
             = timeout) by (intros wi _; reflexivity).
  assert (H4 : ∀ wi f, Inv wi → f ∈ fs → folder_uid f ≠ "b2" →
             delete_ok (refusing wi (delete_url Grafana.base (folder_uid f))
                          Grafana.headers).2).
  { intros wi f _ Hin Hne. unfold fs in Hin.
    rewrite !elem_of_cons, elem_of_nil in Hin.
    destruct Hin as [->|[->|[->|[]]]]; rewrite folder_uid_folder in *;
      [reflexivity | done | reflexivity]. }
  assert (H4' : ∀ wi f, Inv wi → f ∈ fs → folder_uid f ≠ "b2" →
             delete_ok (failing wi (delete_url Grafana.base (folder_uid f))
                          Grafana.headers).2).
  { intros wi f _ Hin Hne. unfold fs in Hin.
    rewrite !elem_of_cons, elem_of_nil in Hin.
    destruct Hin as [->|[->|[->|[]]]]; rewrite folder_uid_folder in *;
      [reflexivity | done | reflexivity]. }
  repeat (split; [assumption |]).
  pose proof (failure_isolation refusing Grafana.base Grafana.headers Inv
                fs "b2" (inr Grafana.forbidden) 0 H1 H2 H0 Hs H3 H4) as Ha.
  pose proof (failure_isolation failing Grafana.base Grafana.headers Inv
                fs "b2" timeout 0 H1 H2' H0 Hs' H3' H4') as Hb.
  cbv zeta in Ha, Hb.
  destruct Ha as (_ & _ & wa & Ea). destruct Hb as (_ & _ & wb & Eb).
  split; [rewrite Ea; reflexivity |].
  split; [rewrite Ea; vm_compute; reflexivity |].
  split; [rewrite Eb; reflexivity |].
  rewrite Eb. vm_compute. reflexivity.
Defined.


Lemma malformed_entry_aborts_witness :
  let pre := [Grafana.folder "a1" "General"] in
  let bad : Folder := {[ "uid" := "zz" ]} in
  let post := [Grafana.folder "c3" "Alerts"] in
  let get := Grafana.get (inr (Grafana.ok_response (pre ++ bad :: post))) in
  (∀ wi url h, list_result (get wi url h).2 = inr (pre ++ bad :: post))
  ∧ Forall has_fields pre
  ∧ ¬ has_fields bad
  ∧ ∃ w' t key base,
      clean_folders Grafana.environ Grafana.input get (Grafana.delete []) 0
      = (w', t, inl (KeyError key))
      ∧ (key = "uid" ∨ key = "title") ∧ bad !! key = None
      ∧ delete_attempts t = (λ f, delete_url base (folder_uid f)) <$> pre.
Proof.
  intros pre bad post get.
  assert (H1 : ∀ wi url h,
             list_result (get wi url h).2 = inr (pre ++ bad :: post))
    by reflexivity.
  assert (H2 : Forall has_fields pre)
    by (repeat constructor; apply has_fields_folder).
  assert (H3 : ¬ has_fields bad).
  { intros [_ [title Htitle]]. unfold bad in Htitle.
    by rewrite lookup_singleton_ne in Htitle. }
  repeat (split; [assumption |]).
  exact (malformed_entry_aborts Grafana.environ Grafana.input get
           (Grafana.delete []) pre post bad 0 H1 H2 H3).
Defined.

(** ** What the loop does with a folder titled "General" *)

(** C1. The listing of the specification's example: the folder titled
    "General" gets its [DELETE] like the two others. *)
Example general_is_deleted :
  let run := Grafana.run [Grafana.folder "a1" "General";
                          Grafana.folder "b2" "Team Dashboards";
                          Grafana.folder "c3" "Alerts"] in
  delete_attempts run.1.2
  = ["http://localhost:3000/api/folders/a1";
     "http://localhost:3000/api/folders/b2";
     "http://localhost:3000/api/folders/c3"]
  ∧ "Successfully deleted General" ∈ printed run.1.2.
Proof. vm_compute. split; [reflexivity |]. set_solver. Qed.

(** C2. A listing of two folders, one of them titled "General": two
    [DELETE]s and two reports, not one. *)
Example general_is_counted :
  let run := Grafana.run [Grafana.folder "b2" "Team Dashboards";
                          Grafana.folder "a1" "General"] in
  delete_attempts run.1.2
  = ["http://localhost:3000/api/folders/b2";
     "http://localhost:3000/api/folders/a1"]
  ∧ printed run.1.2
    = [banner1; banner2;
       "Found 2 folders.";
       "Deleting folder: Team Dashboards (uid: b2) ...";
       "Successfully deleted Team Dashboards";
       "Deleting folder: General (uid: a1) ...";
       "Successfully deleted General"].
Proof. vm_compute. split; reflexivity. Qed.

(** C8. A listing that holds nothing but a folder titled "General": one
    [DELETE] is sent; only the empty listing gives none. *)
Example general_only_listing :
  delete_attempts (Grafana.run [Grafana.folder "a1" "General"]).1.2
  = ["http://localhost:3000/api/folders/a1"]
  ∧ delete_attempts (Grafana.run []).1.2 = [].
Proof. vm_compute. split; reflexivity. Qed.

Lemma trailing_slash_stripped_witness :
  endswith "http://localhost:3000/" "/" = true
  ∧ remove_trailing_slash "http://localhost:3000/" +:+ "/"
    = "http://localhost:3000/"
  ∧ endswith "http://localhost:3000" "/" = false
  ∧ remove_trailing_slash "http://localhost:3000" = "http://localhost:3000".
Proof.
  pose proof (trailing_slash_stripped Grafana.environ Grafana.input
                (Grafana.get (inl Grafana.unreachable)) (Grafana.delete []))
    as (Hstrip & Hkeep & _).
  split; [reflexivity |]. split; [apply Hstrip; reflexivity |].
  split; [reflexivity |]. apply Hkeep. reflexivity.
Defined.


(** * Further properties of the script *)

Section Settings.

Context {World : Type}.
Variable os_environ : gmap string string.
Variable input : World → string → World * string.

(** X1. A variable that is set to a non-empty string is returned as it
    is: nothing is asked, nothing is printed and the world is left as it
    was. *)
Theorem get_env_var_set (var_name prompt_text value : string) (w : World) :
  os_environ !! var_name = Some value →
  value ≠ "" →
  get_env_var os_environ input var_name prompt_text w = (w, [], inr value).
Proof.
  intros Hvar Hne. unfold get_env_var. rewrite Hvar.
  by destruct value.
Qed.

(** X2. A variable that is unset, or set to the empty string, is asked
    for: one prompt, the prompt text followed by ": ", and the line
    typed is the result whatever it is (an empty line is not asked
    again). *)
Theorem get_env_var_prompts (var_name prompt_text : string) (w : World) :
  os_environ !! var_name = None ∨ os_environ !! var_name = Some "" →
  get_env_var os_environ input var_name prompt_text w
  = ((input w (prompt_text +:+ ": ")).1,
     [Input (prompt_text +:+ ": ")],
     inr (input w (prompt_text +:+ ": ")).2).
Proof.
  intros Hvar. unfold get_env_var, do_input.
  destruct Hvar as [-> | ->];
    by destruct (input w (prompt_text +:+ ": ")).
Qed.

Lemma get_env_var_cases (var_name prompt_text : string) (w : World) :
  get_env_var os_environ input var_name prompt_text w
  = match env_value os_environ var_name with
    | Some value => (w, [], inr value)
    | None =>
        ((input w (prompt_text +:+ ": ")).1,
         [Input (prompt_text +:+ ": ")],
         inr (input w (prompt_text +:+ ": ")).2)
    end.
Proof.
  unfold get_env_var, env_value, do_input.
  destruct (os_environ !! var_name) as [[|c v]|]; try done;
    by destruct (input w (prompt_text +:+ ": ")).
Qed.

End Settings.

Section Shape.

Context {World : Type}.
Variable os_environ : gmap string string.
Variable input : World → string → World * string.
Variable requests_get :
  World → string → Headers → World * (RequestException + Response).
Variable requests_delete :
  World → string → Headers → World * (RequestException + Response).

Lemma get_env_var_events (var_name prompt_text : string) (w : World) :
  ∃ w' value,
    get_env_var os_environ input var_name prompt_text w
    = (w',
       Input <$> match env_value os_environ var_name with
                 | Some _ => []
                 | None => [prompt_text +:+ ": "]
                 end,
       inr value)
    ∧ match env_value os_environ var_name with
      | Some v => value = v ∧ w' = w
      | None => (w', value) = input w (prompt_text +:+ ": ")
      end.
Proof.
  rewrite get_env_var_cases.
  destruct (env_value os_environ var_name) as [v|].
  - by exists w, v.
  - eexists _, _. split; [done |]. by destruct (input w _).
Qed.

(** The run from its first event to the listing, with the settings it
    uses and the world in which the listing is asked for. *)
Lemma clean_folders_start (w : World) :
  ∃ wa url w1 auth,
    match env_value os_environ "GRAFANA_URL" with
    | Some v => url = v ∧ wa = w
    | None => (wa, url) = input w (url_prompt +:+ ": ")
    end
    ∧ match env_value os_environ "GRAFANA_AUTH" with
      | Some v => auth = v ∧ w1 = wa
      | None => (w1, auth) = input wa (auth_prompt +:+ ": ")
      end
    ∧ clean_folders os_environ input requests_get requests_delete w
      = (let base := remove_trailing_slash url in
         let hdrs := make_headers auth in
         let opening :=
           [Print banner1; Print banner2]
           ++ (Input <$> missing_prompts os_environ)
           ++ [HttpGet (list_url base) hdrs] in
         let got := requests_get w1 (list_url base) hdrs in
         match list_result got.2 with
         | inl e => (got.1, opening ++ [Print (msg_list_error e)], inr tt)
         | inr fs =>
             let rest :=
               for_each (delete_folder requests_delete base hdrs) fs got.1
             in
             (rest.1.1,
              opening ++ [Print (msg_found (length fs))] ++ rest.1.2,
              rest.2)
         end).
Proof.
  destruct (get_env_var_events "GRAFANA_URL" url_prompt w)
    as (wa & url & Ea & Hurl).
  destruct (get_env_var_events "GRAFANA_AUTH" auth_prompt wa)
    as (w1 & auth & Eb & Hauth).
  exists wa, url, w1, auth. split; [done |]. split; [done |].
  unfold clean_folders, list_folders, http_get, mbind, M_bind, mret,
    M_ret, print, emit, missing_prompts. rewrite Ea, Eb. simpl.
  destruct (requests_get w1 _ _) as [w2 r]. simpl.
  destruct (list_result r) as [e|fs]; simpl.
  - by rewrite fmap_app, <- !app_assoc.
  - destruct (for_each _ fs w2) as [[w3 t3] res]. simpl.
    by rewrite fmap_app, <- !app_assoc.
Qed.

Lemma env_value_set (var_name value : string) :
  os_environ !! var_name = Some value → value ≠ "" →
  env_value os_environ var_name = Some value.
Proof. unfold env_value. intros -> Hne. by destruct value. Qed.

Lemma env_value_unset (var_name : string) :
  os_environ !! var_name = None ∨ os_environ !! var_name = Some "" →
  env_value os_environ var_name = None.
Proof. unfold env_value. by intros [-> | ->]. Qed.

Lemma prompts_inputs (ps : list string) : prompts (Input <$> ps) = ps.
Proof. induction ps as [|p ps IH]; [done |]. simpl. by f_equal. Qed.

Lemma gets_inputs (ps : list string) : gets (Input <$> ps) = [].
Proof. by induction ps. Qed.

Lemma printed_inputs (ps : list string) : printed (Input <$> ps) = [].
Proof. by induction ps. Qed.

Lemma delete_attempts_inputs (ps : list string) :
  delete_attempts (Input <$> ps) = [].
Proof. by induction ps. Qed.

(** The loop sends no [GET] and asks nothing, on any listing. *)
Lemma for_each_quiet (grafana_url : string) (headers : Headers)
    (fs : list Folder) (w : World) :
  gets (for_each (delete_folder requests_delete grafana_url headers)
          fs w).1.2 = []
  ∧ prompts (for_each (delete_folder requests_delete grafana_url headers)
               fs w).1.2 = [].
Proof.
  revert w. induction fs as [|f fs IH]; intros w; [done |].
  rewrite for_each_cons. destruct (decide (has_fields f)) as [Hf|Hf].
  - rewrite delete_folder_fields by done.
    specialize (IH (requests_delete w
                      (delete_url grafana_url (folder_uid f)) headers).1).
    by destruct (for_each _ fs _) as [[w2 t2] r].
  - by destruct (delete_folder_malformed requests_delete grafana_url
                   headers f w Hf) as (key & _ & _ & ->).
Qed.

(** The loop on any listing: it gets through a number [k] of folders,
    each with its fields and its [DELETE]; it ends normally when these
    are all the folders, and with a [KeyError] on the field that the
    next folder lacks otherwise. *)
Lemma for_each_progress (grafana_url : string) (headers : Headers)
    (fs : list Folder) (w : World) :
  ∃ k,
    Forall has_fields (take k fs)
    ∧ delete_attempts
        (for_each (delete_folder requests_delete grafana_url headers)
           fs w).1.2
      = (λ f, delete_url grafana_url (folder_uid f)) <$> take k fs
    ∧ match (for_each (delete_folder requests_delete grafana_url headers)
               fs w).2 with
      | inr _ => k = length fs
      | inl (KeyError key) =>
          ∃ bad, fs !! k = Some bad
                 ∧ (key = "uid" ∨ key = "title") ∧ bad !! key = None
      end.
Proof.
  revert w. induction fs as [|f fs IH]; intros w.
  - by exists 0.
  - rewrite for_each_cons. destruct (decide (has_fields f)) as [Hf|Hf].
    + rewrite delete_folder_fields by done.
      destruct (IH (requests_delete w
                      (delete_url grafana_url (folder_uid f)) headers).1)
        as (k & Hk & Hatt & Hres).
      destruct (for_each _ fs _) as [[w2 t2] r]. simpl in *.
      exists (S k). simpl. split; [by constructor |].
      split; [by rewrite Hatt |].
      destruct r as [[key]|[]]; [done | by rewrite Hres].
    + destruct (delete_folder_malformed requests_delete grafana_url
                  headers f w Hf) as (key & Hkey & Hnone & ->).
      exists 0. simpl. split; [constructor |]. split; [done |].
      by exists f.
Qed.

Lemma printed_folder_events (grafana_url : string) (headers : Headers)
    (fs : list Folder) (rs : list (RequestException + Response)) :
  length rs = length fs →
  length (printed
            (concat (zip_with (folder_events grafana_url headers) fs rs)))
  = 2 * length fs.
Proof.
  revert rs. induction fs as [|f fs IH]; intros [|r rs] Hlen;
    simplify_eq/=; [done |].
  rewrite IH by done. lia.
Qed.

Lemma clean_folders_opening (w : World) :
  ∃ wa url w1 auth t2,
    match env_value os_environ "GRAFANA_URL" with
    | Some v => url = v ∧ wa = w
    | None => (wa, url) = input w (url_prompt +:+ ": ")
    end
    ∧ match env_value os_environ "GRAFANA_AUTH" with
      | Some v => auth = v ∧ w1 = wa
      | None => (w1, auth) = input wa (auth_prompt +:+ ": ")
      end
    ∧ (clean_folders os_environ input requests_get requests_delete w).1.2
      = [Print banner1; Print banner2]
        ++ (Input <$> missing_prompts os_environ)
        ++ HttpGet (list_url (remove_trailing_slash url)) (make_headers auth)
           :: t2
    ∧ gets t2 = [] ∧ prompts t2 = [].
Proof.
  destruct (clean_folders_start w) as (wa & url & w1 & auth & Hu & Ha & E).
  exists wa, url, w1, auth. rewrite E. clear E. simpl.
  destruct (requests_get w1 _ _) as [w2 r]. simpl.
  destruct (list_result r) as [e|fs]; simpl.
  - exists [Print (msg_list_error e)]. repeat split; try done.
    by rewrite <- !app_assoc.
  - destruct (for_each_quiet (remove_trailing_slash url)
                (make_headers auth) fs w2) as [Hg Hp].
    destruct (for_each _ fs w2) as [[w3 t3] res]. simpl in *.
    exists (Print (msg_found (length fs)) :: t3). repeat split; try done.
    by rewrite <- !app_assoc.
Qed.

(** X3. Every run opens the same way: the two lines of the warning, then
    one prompt for each setting without a value in the environment (the
    URL before the credential), then the [GET] of the listing; after
    that there is no further [GET] and no further prompt. *)
Theorem run_opening (w : World) :
  ∃ url headers t2,
    (clean_folders os_environ input requests_get requests_delete w).1.2
    = [Print banner1; Print banner2]
      ++ (Input <$> missing_prompts os_environ)
      ++ HttpGet url headers :: t2
    ∧ gets t2 = [] ∧ prompts t2 = [].
Proof.
  destruct (clean_folders_opening w)
    as (wa & url & w1 & auth & t2 & _ & _ & E & Hg & Hp).
  by eexists _, _, t2.
Qed.

(** X4. With both settings in the environment the run asks nothing: the
    warning is followed at once by the [GET] of the folders below the
    URL of the environment, without its trailing "/", with the headers
    made from the credential of the environment. *)
Theorem configured_run (url auth : string) (w : World) :
  os_environ !! "GRAFANA_URL" = Some url → url ≠ "" →
  os_environ !! "GRAFANA_AUTH" = Some auth → auth ≠ "" →
  ∃ t2,
    (clean_folders os_environ input requests_get requests_delete w).1.2
    = [Print banner1; Print banner2;
       HttpGet (list_url (remove_trailing_slash url)) (make_headers auth)]
      ++ t2
    ∧ gets t2 = [] ∧ prompts t2 = [].
Proof.
  intros Hurl Hu Hauth Ha.
  apply env_value_set in Hurl; [|done]. apply env_value_set in Hauth; [|done].
  destruct (clean_folders_opening w)
    as (wa & url' & w1 & auth' & t2 & Hu' & Ha' & E & Hg & Hp).
  unfold missing_prompts in E. rewrite Hurl, Hauth in *.
  destruct Hu' as [-> _], Ha' as [-> _]. by exists t2.
Qed.

(** X5. With neither setting in the environment the run asks for the
    URL, then for the credential, and uses what was typed: the listing
    is requested below the typed URL, without its trailing "/", with the
    headers made from the typed credential. *)
Theorem interactive_run (w : World) :
  os_environ !! "GRAFANA_URL" = None
  ∨ os_environ !! "GRAFANA_URL" = Some "" →
  os_environ !! "GRAFANA_AUTH" = None
  ∨ os_environ !! "GRAFANA_AUTH" = Some "" →
  let typed_url := input w (url_prompt +:+ ": ") in
  let typed_auth := input typed_url.1 (auth_prompt +:+ ": ") in
  ∃ t2,
    (clean_folders os_environ input requests_get requests_delete w).1.2
    = [Print banner1; Print banner2;
       Input (url_prompt +:+ ": "); Input (auth_prompt +:+ ": ");
       HttpGet (list_url (remove_trailing_slash typed_url.2))
         (make_headers typed_auth.2)]
      ++ t2
    ∧ gets t2 = [] ∧ prompts t2 = [].
Proof.
  intros Hurl%env_value_unset Hauth%env_value_unset typed_url typed_auth.
  destruct (clean_folders_opening w)
    as (wa & url' & w1 & auth' & t2 & Hu' & Ha' & E & Hg & Hp).
  unfold missing_prompts in E. rewrite Hurl, Hauth in *.
  unfold typed_auth, typed_url. rewrite <- Hu'. cbn [fst snd].
  rewrite <- Ha'. cbn [fst snd]. by exists t2.
Qed.

(** X6. Once the listing has come back, the run prints how many entries
    it holds, before anything is deleted and whatever the entries are
    (the count includes entries that lack a field). *)
Theorem found_line_counts_listing (fs : list Folder) (w : World) :
  (∀ wi url h, list_result (requests_get wi url h).2 = inr fs) →
  ∃ lines,
    printed
      (clean_folders os_environ input requests_get requests_delete w).1.2
    = [banner1; banner2; msg_found (length fs)] ++ lines.
Proof.
  intros Hlist.
  destruct (clean_folders_run os_environ input requests_get requests_delete w)
    as (w1 & t1 & url & auth & _ & Hp1 & _ & _ & E).
  rewrite E. clear E. simpl. rewrite Hlist.
  destruct (for_each _ fs _) as [[w3 t3] res]. simpl.
  exists (printed t3). by rewrite printed_app, Hp1.
Qed.

(** X7. On any listing the run deletes a leading part of it, in order,
    one [DELETE] per folder: the whole listing when the run ends
    normally, and otherwise the folders before the first one that lacks
    'uid' or 'title', on which the run ends with a [KeyError]. *)
Theorem attempts_stop_at_first_malformed (fs : list Folder) (w : World) :
  (∀ wi url h, list_result (requests_get wi url h).2 = inr fs) →
  ∃ k base,
    Forall has_fields (take k fs)
    ∧ delete_attempts
        (clean_folders os_environ input requests_get requests_delete w).1.2
      = (λ f, delete_url base (folder_uid f)) <$> take k fs
    ∧ match (clean_folders os_environ input requests_get requests_delete
               w).2 with
      | inr _ => k = length fs
      | inl (KeyError key) =>
          ∃ bad, fs !! k = Some bad
                 ∧ (key = "uid" ∨ key = "title") ∧ bad !! key = None
      end.
Proof.
  intros Hlist.
  destruct (clean_folders_run os_environ input requests_get requests_delete w)
    as (w1 & t1 & url & auth & Hr1 & _ & _ & _ & E).
  rewrite E. clear E. simpl. rewrite Hlist.
  destruct (for_each_progress (remove_trailing_slash url)
              (make_headers auth) fs
              (requests_get w1 (list_url (remove_trailing_slash url))
                 (make_headers auth)).1) as (k & Hk & Hatt & Hres).
  destruct (for_each _ fs _) as [[w3 t3] res]. simpl in *.
  exists k, (remove_trailing_slash url). split; [done |]. split; [|done].
  rewrite delete_attempts_app, requests_nil_delete_attempts by done.
  done.
Qed.

(** X8. When every listed folder has its two fields the run ends
    normally whatever the answers to the [DELETE]s are (all of them may
    fail): one [DELETE] per listed folder, in order, and after the count
    two lines per folder. *)
Theorem delete_failures_never_abort (fs : list Folder) (w : World) :
  (∀ wi url h, list_result (requests_get wi url h).2 = inr fs) →
  Forall has_fields fs →
  ∃ base lines,
    (clean_folders os_environ input requests_get requests_delete w).2
    = inr tt
    ∧ delete_attempts
        (clean_folders os_environ input requests_get requests_delete w).1.2
      = (λ f, delete_url base (folder_uid f)) <$> fs
    ∧ printed
        (clean_folders os_environ input requests_get requests_delete w).1.2
      = [banner1; banner2; msg_found (length fs)] ++ lines
    ∧ length lines = 2 * length fs.
Proof.
  intros Hlist Hfs.
  destruct (clean_folders_run os_environ input requests_get requests_delete w)
    as (w1 & t1 & url & auth & Hr1 & Hp1 & _ & _ & E).
  rewrite E. clear E. simpl. rewrite Hlist.
  destruct (for_each_fields requests_delete (remove_trailing_slash url)
              (make_headers auth) fs
              (requests_get w1 (list_url (remove_trailing_slash url))
                 (make_headers auth)).1 Hfs) as (w' & rs & Hrs & ->).
  apply Forall2_length in Hrs. simpl.
  eexists (remove_trailing_slash url), _. split; [done |]. split; [|split].
  - rewrite delete_attempts_app, requests_nil_delete_attempts by done.
    simpl. by apply delete_attempts_fields.
  - by rewrite printed_app, Hp1.
  - by apply printed_folder_events.
Qed.

(** X9. An empty listing: the run reports that it found 0 folders and
    ends normally; the listing is its only request. *)
Theorem empty_listing_run (w : World) :
  (∀ wi url h, list_result (requests_get wi url h).2 = inr []) →
  (clean_folders os_environ input requests_get requests_delete w).2 = inr tt
  ∧ length
      (requests
         (clean_folders os_environ input requests_get requests_delete
            w).1.2) = 1
  ∧ printed
      (clean_folders os_environ input requests_get requests_delete w).1.2
    = [banner1; banner2; "Found 0 folders."].
Proof.
  intros Hlist.
  destruct (clean_folders_run os_environ input requests_get requests_delete w)
    as (w1 & t1 & url & auth & Hr1 & Hp1 & _ & _ & E).
  rewrite E. clear E. simpl. rewrite Hlist. simpl.
  split; [done |]. by rewrite requests_app, printed_app, Hr1, Hp1.
Qed.

End Shape.

(** ** The two settings, as strings *)

(** X10. Only one trailing "/" is removed: a base URL that ends with two
    of them keeps one, so the result can still end with "/". *)
Theorem only_one_slash_stripped (s : string) :
  remove_trailing_slash (s +:+ "//") = s +:+ "/"
  ∧ endswith (remove_trailing_slash (s +:+ "//")) "/" = true.
Proof.
  assert (E : remove_trailing_slash (s +:+ "//") = s +:+ "/").
  { replace (s +:+ "//") with ((s +:+ "/") +:+ "/")
      by (by rewrite append_assoc).
    apply remove_trailing_slash_strips. }
  split; [done |]. rewrite E. apply endswith_iff. by exists s.
Qed.

(** X11. The Authorization value always carries one of the two scheme
    words, and making a value from it again changes nothing. *)
Theorem authorization_idempotent (grafana_auth : string) :
  str_in "Basic" (authorization grafana_auth)
  || str_in "Bearer" (authorization grafana_auth) = true
  ∧ authorization (authorization grafana_auth) = authorization grafana_auth.
Proof.
  assert (H : str_in "Basic" (authorization grafana_auth)
              || str_in "Bearer" (authorization grafana_auth) = true).
  { unfold authorization.
    destruct (str_in "Basic" grafana_auth || str_in "Bearer" grafana_auth)
      eqn:E; [done |].
    apply orb_true_iff. right. apply prefix_str_in, prefix_iff.
    exists (" " +:+ grafana_auth). by rewrite <- append_assoc. }
  split; [done |]. apply authorization_contains. by apply orb_true_iff.
Qed.

(** X12. The URL of a [DELETE] identifies the uid: below one base URL,
    two uids give the same URL only when they are the same uid. *)
Theorem delete_url_inj (grafana_url uid1 uid2 : string) :
  delete_url grafana_url uid1 = delete_url grafana_url uid2 → uid1 = uid2.
Proof.
  unfold delete_url. intros E.
  apply (inj (String.app grafana_url)) in E.
  by apply (inj (String.app "/api/folders/")) in E.
Qed.

Lemma delete_url_inj_witness :
  delete_url "http://localhost:3000" "b2"
  = delete_url "http://localhost:3000" "b2"
  ∧ "b2" = "b2".
Proof.
  split; [reflexivity |].
  apply (delete_url_inj "http://localhost:3000" "b2" "b2"). reflexivity.
Defined.

(** ** Witnesses on the example server *)

Lemma get_env_var_set_witness :
  Grafana.environ !! "GRAFANA_AUTH" = Some "s3cr3t"
  ∧ "s3cr3t" ≠ ""
  ∧ get_env_var Grafana.environ Grafana.input "GRAFANA_AUTH" auth_prompt 0
    = (0, [], inr "s3cr3t").
Proof.
  assert (H1 : Grafana.environ !! "GRAFANA_AUTH" = Some "s3cr3t")
    by (vm_compute; reflexivity).
  assert (H2 : "s3cr3t" ≠ "") by discriminate.
  split; [exact H1 |]. split; [exact H2 |].
  exact (get_env_var_set Grafana.environ Grafana.input "GRAFANA_AUTH"
           auth_prompt "s3cr3t" 0 H1 H2).
Defined.

Lemma get_env_var_prompts_witness :
  let environ : gmap string string := {[ "GRAFANA_URL" := "" ]} in
  (environ !! "GRAFANA_URL" = None ∨ environ !! "GRAFANA_URL" = Some "")
  ∧ get_env_var environ typed_settings "GRAFANA_URL" url_prompt 0
    = (1, [Input "Enter Grafana URL (e.g. http://localhost:3000): "],
       inr "http://grafana.local:3000/").
Proof.
  intros environ.
  assert (H1 : environ !! "GRAFANA_URL" = None
               ∨ environ !! "GRAFANA_URL" = Some "")
    by (right; vm_compute; reflexivity).
  split; [exact H1 |].
  rewrite (get_env_var_prompts environ typed_settings "GRAFANA_URL"
             url_prompt 0 H1).
  vm_compute. reflexivity.
Defined.

Lemma configured_run_witness :
  Grafana.environ !! "GRAFANA_URL" = Some "http://localhost:3000/"
  ∧ "http://localhost:3000/" ≠ ""
  ∧ Grafana.environ !! "GRAFANA_AUTH" = Some "s3cr3t"
  ∧ "s3cr3t" ≠ ""
  ∧ ∃ t2,
      (Grafana.run [Grafana.folder "b2" "Team Dashboards"]).1.2
      = [Print banner1; Print banner2;
         HttpGet "http://localhost:3000/api/folders"
           [("Content-Type", "application/json");
            ("Authorization", "Bearer s3cr3t")]]
        ++ t2
      ∧ gets t2 = [] ∧ prompts t2 = [].
Proof.
  assert (H1 : Grafana.environ !! "GRAFANA_URL"
               = Some "http://localhost:3000/") by (vm_compute; reflexivity).
  assert (H2 : "http://localhost:3000/" ≠ "") by discriminate.
  assert (H3 : Grafana.environ !! "GRAFANA_AUTH" = Some "s3cr3t")
    by (vm_compute; reflexivity).
  assert (H4 : "s3cr3t" ≠ "") by discriminate.
  repeat (split; [assumption |]).
  exact (configured_run Grafana.environ Grafana.input
           (Grafana.get
              (inr (Grafana.ok_response
                      [Grafana.folder "b2" "Team Dashboards"])))
           (Grafana.delete []) "http://localhost:3000/" "s3cr3t" 0
           H1 H2 H3 H4).
Defined.

Lemma interactive_run_witness :
  let environ : gmap string string := ∅ in
  (environ !! "GRAFANA_URL" = None ∨ environ !! "GRAFANA_URL" = Some "")
  ∧ (environ !! "GRAFANA_AUTH" = None ∨ environ !! "GRAFANA_AUTH" = Some "")
  ∧ ∃ t2,
      (clean_folders environ typed_settings
         (Grafana.get (inr (Grafana.ok_response []))) (Grafana.delete [])
         0).1.2
      = [Print banner1; Print banner2;
         Input "Enter Grafana URL (e.g. http://localhost:3000): ";
         Input
           "Enter Grafana Auth (Basic username:password or Bearer token): ";
         HttpGet "http://grafana.local:3000/api/folders"
           [("Content-Type", "application/json");
            ("Authorization", "Basic YWRtaW46YWRtaW4=")]]
        ++ t2
      ∧ gets t2 = [] ∧ prompts t2 = [].
Proof.
  intros environ.
  assert (H1 : environ !! "GRAFANA_URL" = None
               ∨ environ !! "GRAFANA_URL" = Some "") by (left; reflexivity).
  assert (H2 : environ !! "GRAFANA_AUTH" = None
               ∨ environ !! "GRAFANA_AUTH" = Some "") by (left; reflexivity).
  split; [exact H1 |]. split; [exact H2 |].
  exact (interactive_run environ typed_settings
           (Grafana.get (inr (Grafana.ok_response []))) (Grafana.delete [])
           0 H1 H2).
Defined.

Lemma found_line_counts_listing_witness :
  let fs : list Folder :=
    [Grafana.folder "b2" "Team Dashboards"; {[ "uid" := "zz" ]}] in
  let get := Grafana.get (inr (Grafana.ok_response fs)) in
  (∀ wi url h, list_result (get wi url h).2 = inr fs)
  ∧ ∃ lines,
      printed
        (clean_folders Grafana.environ Grafana.input get (Grafana.delete [])
           0).1.2
      = [banner1; banner2; "Found 2 folders."] ++ lines.
Proof.
  intros fs get.
  assert (H1 : ∀ wi url h, list_result (get wi url h).2 = inr fs)
    by reflexivity.
  split; [exact H1 |].
  exact (found_line_counts_listing Grafana.environ Grafana.input get
           (Grafana.delete []) fs 0 H1).
Defined.

Lemma attempts_stop_at_first_malformed_witness :
  let fs : list Folder :=
    [Grafana.folder "a1" "General"; {[ "uid" := "zz" ]};
     Grafana.folder "c3" "Alerts"] in
  let get := Grafana.get (inr (Grafana.ok_response fs)) in
  let run :=
    clean_folders Grafana.environ Grafana.input get (Grafana.delete []) 0 in
  (∀ wi url h, list_result (get wi url h).2 = inr fs)
  ∧ ∃ k base,
      Forall has_fields (take k fs)
      ∧ delete_attempts run.1.2
        = (λ f, delete_url base (folder_uid f)) <$> take k fs
      ∧ match run.2 with
        | inr _ => k = length fs
        | inl (KeyError key) =>
            ∃ bad, fs !! k = Some bad
                   ∧ (key = "uid" ∨ key = "title") ∧ bad !! key = None
        end.
Proof.
  intros fs get run.
  assert (H1 : ∀ wi url h, list_result (get wi url h).2 = inr fs)
    by reflexivity.
  split; [exact H1 |].
  exact (attempts_stop_at_first_malformed Grafana.environ Grafana.input get
           (Grafana.delete []) fs 0 H1).
Defined.

Lemma delete_failures_never_abort_witness :
  let fs := [Grafana.folder "a1" "General";
             Grafana.folder "b2" "Team Dashboards"] in
  let get := Grafana.get (inr (Grafana.ok_response fs)) in
  let delete := Grafana.delete [delete_url Grafana.base "a1";
                                delete_url Grafana.base "b2"] in
  let run := clean_folders Grafana.environ Grafana.input get delete 0 in
  (∀ wi url h, list_result (get wi url h).2 = inr fs)
  ∧ Forall has_fields fs
  ∧ run.2 = inr tt
  ∧ delete_attempts run.1.2
    = ["http://localhost:3000/api/folders/a1";
       "http://localhost:3000/api/folders/b2"]
  ∧ printed run.1.2
    = [banner1; banner2; "Found 2 folders.";
       "Deleting folder: General (uid: a1) ...";
       "Failed to delete General: 403 - forbidden";
       "Deleting folder: Team Dashboards (uid: b2) ...";
       "Failed to delete Team Dashboards: 403 - forbidden"].
Proof.
  intros fs get delete run.
  assert (H1 : ∀ wi url h, list_result (get wi url h).2 = inr fs)
    by reflexivity.
  assert (H2 : Forall has_fields fs)
    by (repeat constructor; apply has_fields_folder).
  split; [exact H1 |]. split; [exact H2 |].
  destruct (delete_failures_never_abort Grafana.environ Grafana.input get
              delete fs 0 H1 H2) as (base & lines & Hres & _).
  split; [exact Hres |]. vm_compute. split; reflexivity.
Defined.

Lemma empty_listing_run_witness :
  let get := Grafana.get (inr (Grafana.ok_response [])) in
  let run :=
    clean_folders Grafana.environ Grafana.input get (Grafana.delete []) 0 in
  (∀ wi url h, list_result (get wi url h).2 = inr [])
  ∧ run.2 = inr tt
  ∧ length (requests run.1.2) = 1
  ∧ printed run.1.2 = [banner1; banner2; "Found 0 folders."].
Proof.
  intros get run.
  assert (H1 : ∀ wi url h, list_result (get wi url h).2 = inr [])
    by reflexivity.
  split; [exact H1 |].
  exact (empty_listing_run Grafana.environ Grafana.input get
           (Grafana.delete []) 0 H1).
Defined.
